(** * quartodoc command line: change debouncer, build scope, interlinks

    A shallow embedding of [quartodoc/__main__.py]: the file-change handler
    of the watch mode ([QuartoDocFileChangeHandler]), the scoped change of
    working directory ([chdir]) and the [interlinks] command, with the
    properties the specification states about them. *)

From Stdlib Require Import ZArith Ascii String List Bool Lia.
From Stdlib Require Import Floats.
Import ListNotations.

Local Open Scope string_scope.
Local Open Scope Z_scope.

(** ** Python values used by the module *)

(** Python's [float] is IEEE 754 binary64, which is what the primitive
    [float] of the kernel is; [a > b] on floats is [b < a]. *)
Definition float_gt (a b : float) : bool := PrimFloat.ltb b a.

(** Numbers that no positive number is below: zeros, negative numbers and
    not-a-number. *)
Definition nonpositive (x : spec_float) : Prop :=
  match x with
  | S754_zero _ | S754_nan => True
  | S754_infinity s | S754_finite s _ _ => s = true
  end.

(** [class FileInfo(BaseModel)]: [size: int], [mtime: float], [name: str]. *)
Record FileInfo : Type := mkFileInfo {
  size : Z;
  mtime : float;
  name : string
}.

(** The exceptions that the modelled code can see. *)
Inductive exn : Type :=
| FileNotFoundError (path : string)
| KeyError (key : string)
| TypeError
| AttributeError
| InventoryError (url : string)
| BuildError (msg : string).

(** ** Paths

    [pathlib.Path] on a POSIX system, as far as the module uses it: a path
    is its anchor (the empty string, ["/"] or ["//"]) and its components;
    empty components and ["."] are dropped when a string is parsed. *)

Module PurePath.

Record Path : Type := mkPath {
  anchor : string;
  parts : list string
}.

Definition slash : Ascii.ascii := "/"%char.

(** [s.split("/")]. *)
Fixpoint split_slash (s : string) : list string :=
  match s with
  | EmptyString => [EmptyString]
  | String c s' =>
      if Ascii.eqb c slash then EmptyString :: split_slash s'
      else match split_slash s' with
           | h :: t => String c h :: t
           | [] => [String c EmptyString]
           end
  end.

(** The number of leading separators decides the anchor: exactly two give
    ["//"], any other positive number gives ["/"]. *)
Fixpoint leading_slashes (s : string) : nat :=
  match s with
  | String c s' => if Ascii.eqb c slash then S (leading_slashes s') else O
  | EmptyString => O
  end.

Definition anchor_of (s : string) : string :=
  match leading_slashes s with
  | O => ""
  | 2%nat => "//"
  | _ => "/"
  end.

Definition is_component (x : string) : bool :=
  negb (String.eqb x "") && negb (String.eqb x ".").

(** [Path(s)]. *)
Definition of_string (s : string) : Path :=
  mkPath (anchor_of s) (filter is_component (split_slash s)).

(** [p / s]: an anchored right operand replaces the left one. *)
Definition joinpath (p : Path) (s : string) : Path :=
  let q := of_string s in
  if String.eqb (anchor q) "" then mkPath (anchor p) (parts p ++ parts q)
  else q.

(** [p.parent]: a path without components is its own parent. *)
Definition parent (p : Path) : Path :=
  mkPath (anchor p) (removelast (parts p)).

(** [str(p)]. *)
Definition to_string (p : Path) : string :=
  match anchor p, parts p with
  | EmptyString, [] => "."
  | a, ps => a ++ String.concat "/" ps
  end.

End PurePath.
Export PurePath.

(** ** Configuration values

    What [yaml.safe_load] returns for a document of nulls, booleans,
    integers, strings, sequences and mappings with string keys. A mapping
    keeps its entries in the order of the document, as a Python [dict]
    does. *)

#[local] Set Warnings "-register-all".
Inductive yaml : Type :=
| YNull
| YBool (b : bool)
| YInt (z : Z)
| YStr (s : string)
| YList (l : list yaml)
| YMap (m : list (string * yaml)).

Fixpoint lookup (key : string) (m : list (string * yaml)) : option yaml :=
  match m with
  | [] => None
  | (k, v) :: m' => if String.eqb k key then Some v else lookup key m'
  end.

(** An object inventory, as [sphobjinv] holds it after a fetch: the
    documented symbols with their locations. *)
Definition Inventory : Type := list (string * string).

(** ** The process and its environment *)

(** What the code does to the outside, in the order it does it. *)
Inductive effect : Type :=
| Print (line : string)
| Fetch (url : string)
| Mkdir (dir : Path)
| Convert (inv : Inventory) (dst : Path).

Record World : Type := mkWorld {
  cwd : string;                                (* the working directory *)
  stat : string -> option (Z * float);         (* st_size, st_mtime of a path *)
  config_files : string -> option yaml;        (* the YAML documents on disk *)
  network : string -> option Inventory;        (* what a URL serves *)
  trace : list effect                          (* the effects so far *)
}.

Definition set_cwd (d : string) (w : World) : World :=
  mkWorld d (stat w) (config_files w) (network w) (trace w).

Definition log (e : effect) (w : World) : World :=
  mkWorld (cwd w) (stat w) (config_files w) (network w) (trace w ++ [e]).

(** A computation runs in a world and either returns a value or raises an
    exception; either way the world is the one it has reached. *)
Inductive result (A : Type) : Type :=
| Ok (a : A) (w : World)
| Raise (e : exn) (w : World).
Arguments Ok {A} a w.
Arguments Raise {A} e w.

Definition world_of {A : Type} (r : result A) : World :=
  match r with Ok _ w | Raise _ w => w end.

Definition M (A : Type) : Type := World -> result A.

Definition ret {A : Type} (a : A) : M A := fun w => Ok a w.

Definition raise {A : Type} (e : exn) : M A := fun w => Raise e w.

Definition bind {A B : Type} (c : M A) (k : A -> M B) : M B :=
  fun w => match c w with
           | Ok a w' => k a w'
           | Raise e w' => Raise e w'
           end.

Notation "x <- c ;; k" := (bind c (fun x => k))
  (at level 61, c at next level, right associativity).
Notation "c ;;; k" := (bind c (fun _ => k))
  (at level 61, right associativity).

(** [try: c finally: f]. An exception of [f] replaces the outcome of [c]. *)
Definition try_finally {A : Type} (c : M A) (f : M unit) : M A :=
  fun w => match c w with
           | Ok a w' =>
               match f w' with
               | Ok _ w'' => Ok a w''
               | Raise e w'' => Raise e w''
               end
           | Raise e w' =>
               match f w' with
               | Ok _ w'' => Raise e w''
               | Raise e' w'' => Raise e' w''
               end
           end.

(** [for x in l: body x]. *)
Fixpoint for_each {A : Type} (l : list A) (body : A -> M unit) : M unit :=
  match l with
  | [] => ret tt
  | x :: l' => body x ;;; for_each l' body
  end.

(** [print(line)]. *)
Definition print (line : string) : M unit :=
  fun w => Ok tt (log (Print line) w).

(** ** Change debouncer *)

Module Debouncer.

(** [QuartoDocFileChangeHandler.is_diff]. *)
Definition is_diff (old new : FileInfo) : bool :=
  let same_nm := String.eqb (name old) (name new) in
  let diff_sz := negb (Z.eqb (size old) (size new)) in
  let diff_tm := float_gt (PrimFloat.sub (mtime new) (mtime old)) 0.25%float in
  negb same_nm || (same_nm && (diff_sz || diff_tm)).

(** The snapshot [__init__] stores: [FileInfo(size=-1, mtime=-1, name="")]. *)
Definition initial_file_info : FileInfo :=
  mkFileInfo (-1) (-1)%float "".

End Debouncer.
Export Debouncer.

(** ** Watch session: the per-event handler *)

Module Watch.

(** A file-system event of [watchdog], as far as the handler reads it. *)
Record Event : Type := mkEvent {
  event_type : string;
  src_path : string
}.

(** [QuartoDocFileChangeHandler]: the rebuild callback and the snapshot
    of the event before. *)
Record Handler : Type := mkHandler {
  callback : M unit;
  old_file_info : FileInfo
}.

(** [__init__(self, callback)]. *)
Definition init (callback : M unit) : Handler :=
  mkHandler callback initial_file_info.

(** [os.stat(path)]: raises when the path does not exist. *)
Definition os_stat (path : string) : M (Z * float) :=
  fun w => match stat w path with
           | Some st => Ok st w
           | None => Raise (FileNotFoundError path) w
           end.

(** [get_file_info]: two calls of [os.stat], one for each field. *)
Definition get_file_info (path : string) : M FileInfo :=
  st1 <- os_stat path ;;
  st2 <- os_stat path ;;
  ret (mkFileInfo (fst st1) (snd st2) path).

(** [print_event]. *)
Definition print_event (event : Event) : M unit :=
  print ("Rebuilding docs.  Detected: " ++ event_type event
         ++ " path : " ++ src_path event).

(** [callback_if_diff]: the handler after the event is the value returned;
    when the body raises, the assignment of its last line is not reached
    and the handler stays as it was. *)
Definition callback_if_diff (self : Handler) (event : Event) : M Handler :=
  new_file_info <- get_file_info (src_path event) ;;
  (if is_diff (old_file_info self) new_file_info
   then callback self ;;; print_event event
   else ret tt) ;;;
  ret (mkHandler (callback self) new_file_info).

Definition on_modified (self : Handler) (event : Event) : M Handler :=
  callback_if_diff self event.

Definition on_created (self : Handler) (event : Event) : M Handler :=
  callback_if_diff self event.

End Watch.
Export Watch.

(** ** Build trigger: the scoped change of working directory *)

Module Scope.

(** [os.getcwd()]. *)
Definition os_getcwd : M string := fun w => Ok (cwd w) w.

(** [os.chdir(d)]: the working directory of the process becomes [d]. The
    directory tree is not part of the model. *)
Definition os_chdir (d : string) : M unit := fun w => Ok tt (set_cwd d w).

(** [with chdir(new_dir): body]. The generator of the context manager runs
    up to its [yield] on entry; on exit, normal or not, its [finally]
    runs. *)
Definition chdir {A : Type} (new_dir : string) (body : M A) : M A :=
  prev <- os_getcwd ;;
  os_chdir new_dir ;;;
  try_finally body (os_chdir prev).

End Scope.
Export Scope.

(** ** Inventory synchronizer: the [interlinks] command *)

Module Interlinks.

(** [d.get(key, default)]; only a mapping has the method. *)
Definition py_get (d : yaml) (key : string) (default : yaml) : M yaml :=
  match d with
  | YMap m => ret (match lookup key m with Some v => v | None => default end)
  | _ => raise AttributeError
  end.

(** [d[key]]; no other value of a configuration takes a string index. *)
Definition py_index (d : yaml) (key : string) : M yaml :=
  match d with
  | YMap m => match lookup key m with
              | Some v => ret v
              | None => raise (KeyError key)
              end
  | _ => raise TypeError
  end.

(** [d.items()]. *)
Definition py_items (d : yaml) : M (list (string * yaml)) :=
  match d with
  | YMap m => ret m
  | _ => raise AttributeError
  end.

(** [v == s] for a string literal [s]. *)
Definition py_eq_str (v : yaml) (s : string) : bool :=
  match v with
  | YStr t => String.eqb t s
  | _ => false
  end.

Definition as_int (v : yaml) : option Z :=
  match v with
  | YInt z => Some z
  | YBool b => Some (if b then 1 else 0)
  | _ => None
  end.

(** [a + b]. *)
Definition py_add (a b : yaml) : M yaml :=
  match a, b with
  | YStr s, YStr t => ret (YStr (s ++ t))
  | YList l, YList l' => ret (YList (l ++ l'))
  | _, _ => match as_int a, as_int b with
            | Some x, Some y => ret (YInt (x + y))
            | _, _ => raise TypeError
            end
  end.

(** [p / v]: the right operand has to be a string. *)
Definition path_div (p : Path) (v : yaml) : M Path :=
  match v with
  | YStr s => ret (joinpath p s)
  | _ => raise TypeError
  end.

(** [yaml.safe_load(open(config))]. *)
Definition load_config (config : string) : M yaml :=
  fun w => match config_files w config with
           | Some cfg => Ok cfg w
           | None => Raise (FileNotFoundError config) w
           end.

(** [soi.Inventory(url=url)]: the request goes out, and what comes back is
    parsed; a failure of either raises. A [url] that is not a string is
    refused before any request. *)
Definition soi_Inventory (url : yaml) : M Inventory :=
  match url with
  | YStr u => fun w => match network w u with
                       | Some inv => Ok inv (log (Fetch u) w)
                       | None => Raise (InventoryError u) (log (Fetch u) w)
                       end
  | _ => raise TypeError
  end.

(** [p.mkdir(exist_ok=True, parents=True)]. *)
Definition mkdir (p : Path) : M unit := fun w => Ok tt (log (Mkdir p) w).

(** Modelled from the spec: [convert_inventory] of the [quartodoc] package
    is not part of this module; it converts the inventory to the format of
    the cache and writes it to [p_dst]. *)
Definition convert_inventory (inv : Inventory) (p_dst : Path) : M unit :=
  fun w => Ok tt (log (Convert inv p_dst) w).

(** The body of the loop over [interlinks["sources"].items()]. *)
Definition interlinks_source (p_root : Path) (cache : yaml)
    (kv : string * yaml) : M unit :=
  let (k, v) := kv in
  url0 <- py_index v "url" ;;
  if py_eq_str url0 "/" then ret tt
  else
    base <- py_index v "url" ;;
    inv_name <- py_get v "inv" (YStr "objects.inv") ;;
    url <- py_add base inv_name ;;
    inv <- soi_Inventory url ;;
    p_cache <- path_div p_root cache ;;
    p_dst <- path_div p_cache (YStr (k ++ "_objects.json")) ;;
    mkdir (parent p_dst) ;;;
    convert_inventory inv p_dst.

(** [interlinks(config, dry_run)]. *)
Definition interlinks (config : string) (dry_run : bool) : M unit :=
  cfg <- load_config config ;;
  interlinks <- py_get cfg "interlinks" YNull ;;
  cache <- py_get cfg "cache" (YStr "_inv") ;;
  let p_root := parent (of_string config) in
  match interlinks with
  | YNull =>
      print "No interlinks field found in your quarto config. Quitting."
  | _ =>
      sources <- py_index interlinks "sources" ;;
      items <- py_items sources ;;
      for_each items (interlinks_source p_root cache)
  end.

End Interlinks.
Export Interlinks.

(** ** Predicates and sample runs used by the statements *)

(** A source entry whose [url] is the local root ["/"]. *)
Definition is_sentinel (v : yaml) : bool :=
  match v with
  | YMap e => match lookup "url" e with
              | Some u => py_eq_str u "/"
              | None => false
              end
  | _ => false
  end.

(** The URL requested for a source entry that is not the local root:
    [url] followed by [inv], or by ["objects.inv"] without [inv]. *)
Definition source_url (v : yaml) : option string :=
  match v with
  | YMap e =>
      match lookup "url" e with
      | Some (YStr b) =>
          if String.eqb b "/" then None
          else match lookup "inv" e with
               | None => Some (b ++ "objects.inv")%string
               | Some (YStr i) => Some (b ++ i)%string
               | Some _ => None
               end
      | _ => None
      end
  | _ => None
  end.

(** The value of the top-level key [cache] of a configuration, ["_inv"]
    without the key. *)
Definition cache_of (cfg : list (string * yaml)) : yaml :=
  match lookup "cache" cfg with
  | Some v => v
  | None => YStr "_inv"
  end.

(** The cache file of the source [k]. *)
Definition cache_path (p_root : Path) (cache k : string) : Path :=
  joinpath (joinpath p_root cache) (k ++ "_objects.json").

(** What one round of the loop of [interlinks] can do with the source
    [k], [v] in the world [w], the cache directory being the string [c]:
    skip it, raise before any request, raise on the request, or write the
    cache file. *)
Inductive step_outcome (p_root : Path) (c k : string) (v : yaml) (w : World) :
    result unit -> Prop :=
| step_skip :
    is_sentinel v = true -> step_outcome p_root c k v w (Ok tt w)
| step_refused (e : exn) :
    is_sentinel v = false -> step_outcome p_root c k v w (Raise e w)
| step_fetch_failed (u : string) :
    is_sentinel v = false -> network w u = None ->
    step_outcome p_root c k v w (Raise (InventoryError u) (log (Fetch u) w))
| step_written (u : string) (inv : Inventory) :
    is_sentinel v = false -> network w u = Some inv ->
    step_outcome p_root c k v w
      (Ok tt (log (Convert inv (cache_path p_root c k))
                (log (Mkdir (parent (cache_path p_root c k)))
                   (log (Fetch u) w)))).

Module Samples.

(** A package directory with one module in it. *)
Definition pkg_stat (path : string) : option (Z * float) :=
  if String.eqb path "pkg/mod.py" then Some (120, 5%float) else None.

Definition no_config (path : string) : option yaml := None.
Definition no_network (url : string) : option Inventory := None.

Definition watch_world : World :=
  mkWorld "/home/user/project" pkg_stat no_config no_network [].

Definition failing_build : M unit := raise (BuildError "build failed").

Definition modified_mod : Event := mkEvent "modified" "pkg/mod.py".
Definition modified_gone : Event := mkEvent "modified" "pkg/gone.py".

(** A body that moves elsewhere and then fails. *)
Definition wandering_body : M unit :=
  os_chdir "/tmp" ;;; raise (BuildError "build failed").

(** Two projects: one whose [interlinks] block names a cache directory and
    lists the project itself, one with three external sources of which the
    second cannot be fetched. *)
Definition inv_a : Inventory := [("a.f", "https://a.example/api/a.f.html")].
Definition inv_c : Inventory := [("c.g", "https://c.example/api/c.g.html")].

Definition cached_sources : list (string * yaml) :=
  [("self", YMap [("url", YStr "/")]);
   ("A", YMap [("url", YStr "https://a.example/")])].

Definition cached_config : list (string * yaml) :=
  [("project", YMap [("type", YStr "website")]);
   ("interlinks", YMap [("cache", YStr "mycache");
                        ("sources", YMap cached_sources)])].

Definition abc_sources : list (string * yaml) :=
  [("A", YMap [("url", YStr "https://a.example/")]);
   ("B", YMap [("url", YStr "https://b.example/")]);
   ("C", YMap [("url", YStr "https://c.example/")])].

Definition abc_config : list (string * yaml) :=
  [("interlinks", YMap [("sources", YMap abc_sources)])].

Definition docs_files (path : string) : option yaml :=
  if String.eqb path "_quarto.yml" then Some (YMap cached_config)
  else if String.eqb path "abc/_quarto.yml" then Some (YMap abc_config)
  else None.

Definition docs_network (url : string) : option Inventory :=
  if String.eqb url "https://a.example/objects.inv" then Some inv_a
  else if String.eqb url "https://c.example/objects.inv" then Some inv_c
  else None.

Definition docs_world : World :=
  mkWorld "/home/user/project" pkg_stat docs_files docs_network [].

(** [docs_world] once the source [A] of the second project is in the
    cache. *)
Definition docs_world_after_A : World :=
  log (Convert inv_a (mkPath "" ["abc"; "_inv"; "A_objects.json"]))
    (log (Mkdir (mkPath "" ["abc"; "_inv"]))
       (log (Fetch "https://a.example/objects.inv") docs_world)).

End Samples.

(** ** The [build] command *)

Module Build.

Section Collaborators.

(** What the command takes from the rest of the package and from its
    libraries: the builder of the [quartodoc] package with its two entry
    points, the setup of the logs, and the branch of [--watch] (the path of
    the package, the observer thread and the loop until the interrupt),
    which gets the builder and the rebuild callback. *)
Variable Builder : Type.
Variable from_quarto_config : string -> M Builder.
Variable builder_build : Builder -> string -> M unit.
Variable enable_logs : M unit.
Variable watch_session : Builder -> M unit -> M unit.

(** [build(config, filter, dry_run, watch, verbose)]. *)
Definition build (config filter : string) (dry_run watch verbose : bool)
    : M unit :=
  (if verbose then enable_logs else ret tt) ;;;
  builder <- from_quarto_config config ;;
  let doc_build := builder_build builder filter in
  if dry_run then ret tt
  else
    chdir (to_string (parent (of_string config)))
      (if watch then watch_session builder doc_build else doc_build).

End Collaborators.

End Build.
Export Build.

(** ** Locating the package to watch *)

Module Packages.

(** What an import can raise, as far as [get_package_path] tells the
    exceptions apart. *)
Inductive import_error : Type :=
| ModuleNotFoundError (msg : string)
| OtherError (class msg : string).

(** An imported module: its [__path__], which only a package has. *)
Record PyModule : Type := mkModule {
  path_attr : option (list string)
}.

(** [lib.__path__[0]]. *)
Definition first_path (lib : PyModule) : import_error + string :=
  match path_attr lib with
  | None => inl (OtherError "AttributeError" "__path__")
  | Some [] => inl (OtherError "IndexError" "list index out of range")
  | Some (p :: _) => inr p
  end.

(** [get_package_path(package_name)], over what
    [importlib.import_module] does in the environment. *)
Definition get_package_path
    (import_module : string -> import_error + PyModule)
    (package_name : string) : import_error + string :=
  let body :=
    match import_module package_name with
    | inl e => inl e
    | inr lib => first_path lib
    end in
  match body with
  | inl (ModuleNotFoundError _) =>
      inl (ModuleNotFoundError
             ("Package " ++ package_name
              ++ " not found.  Please install it in your environment."))
  | r => r
  end.

End Packages.

(** ** More predicates used by the statements *)


(** What a round of the loop of [interlinks] adds to the effects for the
    source [k], [v]: nothing for the local root and for an entry without a
    URL to request, the request alone when it fails, and the request, the
    directory and the file otherwise. *)
Definition source_effects (p_root : Path) (c : string) (w : World)
    (kv : string * yaml) : list effect :=
  match source_url (snd kv) with
  | Some u =>
      match network w u with
      | Some inv =>
          [Fetch u;
           Mkdir (parent (cache_path p_root c (fst kv)));
           Convert inv (cache_path p_root c (fst kv))]
      | None => [Fetch u]
      end
  | None => []
  end.

Module MoreSamples.

(** An observation of [report.py], always with the same size. *)
Definition report_at (mt : float) (path : string) : option (Z * float) :=
  if String.eqb path "report.py" then Some (120, mt) else None.

Definition report_world (mt : float) : World :=
  mkWorld "/home/user/project" (report_at mt) Samples.no_config
    Samples.no_network [].

Definition modified_report : Event := mkEvent "modified" "report.py".

Definition quiet_build : M unit := ret tt.

(** An environment with one package, and one whose import misses a
    dependency. *)
Definition sample_import (name : string)
    : Packages.import_error + Packages.PyModule :=
  if String.eqb name "quartodoc"
  then inr (Packages.mkModule (Some ["/site-packages/quartodoc"]))
  else if String.eqb name "broken"
  then inl (Packages.ModuleNotFoundError "No module named yaml")
  else inl (Packages.ModuleNotFoundError "No module named missing").


(** Configurations with something missing. *)
Definition no_interlinks_config : list (string * yaml) :=
  [("project", YMap [("type", YStr "website")])].
Definition no_sources_config : list (string * yaml) :=
  [("interlinks", YMap [("fast", YBool true)])].
Definition no_url_config : list (string * yaml) :=
  [("interlinks",
    YMap [("sources",
           YMap [("A", YMap [("url", YStr "https://a.example/")]);
                 ("B", YMap [("inv", YStr "objects.inv")])])])].
Definition numeric_cache_config : list (string * yaml) :=
  [("cache", YInt 5);
   ("interlinks",
    YMap [("sources",
           YMap [("A", YMap [("url", YStr "https://a.example/")])])])].

Definition edge_files (path : string) : option yaml :=
  if String.eqb path "none.yml" then Some (YMap no_interlinks_config)
  else if String.eqb path "empty.yml" then Some YNull
  else if String.eqb path "nosources.yml" then Some (YMap no_sources_config)
  else if String.eqb path "nourl.yml" then Some (YMap no_url_config)
  else if String.eqb path "numeric.yml" then Some (YMap numeric_cache_config)
  else None.

Definition edge_world : World :=
  mkWorld "/home/user/project" Samples.pkg_stat edge_files
    Samples.docs_network [].

End MoreSamples.

(** * Properties *)

(** ** Binary64 subtraction and comparison

    The change predicate compares a difference of two floats with a
    constant. The facts needed about that difference are proved on the
    specification of the binary64 operations. *)

Module Binary64.

Lemma digits2_pos_bounds (p : positive) :
  2 ^ (Zpos (digits2_pos p) - 1) <= Zpos p < 2 ^ Zpos (digits2_pos p).
Proof.
  induction p as [p IH | p IH | ]; cbn [digits2_pos].
  - rewrite Pos2Z.inj_succ.
    replace (Z.succ (Zpos (digits2_pos p)) - 1)
      with (Z.succ (Zpos (digits2_pos p) - 1)) by lia.
    rewrite !Z.pow_succ_r by lia. lia.
  - rewrite Pos2Z.inj_succ.
    replace (Z.succ (Zpos (digits2_pos p)) - 1)
      with (Z.succ (Zpos (digits2_pos p) - 1)) by lia.
    rewrite !Z.pow_succ_r by lia. lia.
  - cbn. lia.
Qed.

Lemma iter_xO (d m : positive) : Zpos (Pos.iter xO m d) = Zpos m * 2 ^ Zpos d.
Proof.
  induction d as [ | d IH] using Pos.peano_ind.
  - cbn. lia.
  - rewrite Pos.iter_succ, Pos2Z.inj_succ, Z.pow_succ_r by lia.
    rewrite Pos2Z.inj_xO, IH. lia.
Qed.

Lemma shl_align_fst (mx : positive) (ex ez : Z) :
  ez <= ex -> Zpos (fst (shl_align mx ex ez)) = Zpos mx * 2 ^ (ex - ez).
Proof.
  intros Hle. unfold shl_align.
  destruct (ez - ex) as [ | d | d] eqn:E; cbn [fst].
  - replace (ex - ez) with 0 by lia. cbn. lia.
  - lia.
  - rewrite iter_xO. f_equal. f_equal. lia.
Qed.

Lemma shl_align_same (m : positive) (e : Z) :
  fst (shl_align m e (Z.min e e)) = m.
Proof.
  unfold shl_align. rewrite Z.min_id, Z.sub_diag. reflexivity.
Qed.

(** A valid mantissa has at most 53 digits, and exactly 53 above the
    smallest exponent. *)
Lemma bounded_digits (m : positive) (e : Z) :
  bounded prec emax m e = true ->
  Zpos (digits2_pos m) <= 53 /\ -1074 <= e /\
  (-1074 < e -> Zpos (digits2_pos m) = 53).
Proof.
  unfold bounded, canonical_mantissa, fexp, emin, prec, emax.
  intros H. apply andb_prop in H. destruct H as [H _].
  apply Z.eqb_eq in H. lia.
Qed.

(** Of two valid numbers the one with the smaller exponent has the smaller
    magnitude, also once both are aligned on the smaller exponent. *)
Lemma aligned_lt (m1 m2 : positive) (e1 e2 : Z) :
  bounded prec emax m1 e1 = true -> bounded prec emax m2 e2 = true ->
  e1 < e2 ->
  Zpos (fst (shl_align m1 e1 (Z.min e1 e2)))
  < Zpos (fst (shl_align m2 e2 (Z.min e1 e2))).
Proof.
  intros B1 B2 Hlt.
  apply bounded_digits in B1. apply bounded_digits in B2.
  destruct B1 as (D1 & L1 & _). destruct B2 as (_ & _ & D2).
  specialize (D2 ltac:(lia)).
  rewrite !shl_align_fst by lia.
  rewrite Z.min_l by lia. rewrite Z.sub_diag, Z.mul_1_r.
  pose proof (digits2_pos_bounds m1) as [_ U1].
  pose proof (digits2_pos_bounds m2) as [U2 _].
  rewrite D2 in U2.
  assert (P1 : 2 ^ Zpos (digits2_pos m1) <= 2 ^ 53)
    by (apply Z.pow_le_mono_r; lia).
  assert (P2 : 2 ^ 1 <= 2 ^ (e2 - e1)) by (apply Z.pow_le_mono_r; lia).
  change (2 ^ 1) with 2 in P2.
  change (2 ^ (53 - 1)) with 4503599627370496 in U2.
  change (2 ^ 53) with 9007199254740992 in P1.
  nia.
Qed.

Lemma SFltb_nonpositive (m : positive) (e : Z) (x : spec_float) :
  nonpositive x -> SFltb (S754_finite false m e) x = false.
Proof.
  destruct x as [s | s | | s mx ex]; cbn; intros H; subst; reflexivity.
Qed.

(** Rounding keeps the sign it is given. *)
Lemma binary_round_aux_nonpositive (mx ex : Z) (lx : location) :
  nonpositive (binary_round_aux prec emax true mx ex lx).
Proof.
  unfold binary_round_aux.
  destruct (shr_fexp prec emax mx ex lx) as [mrs' e'].
  destruct (shr_fexp prec emax _ e' loc_Exact) as [mrs'' e''].
  destruct (shr_m mrs'') as [ | m | m]; [exact I | | exact I].
  destruct (e'' <=? emax - prec)%Z; exact eq_refl.
Qed.

Lemma binary_normalize_nonpositive (z e : Z) :
  z <= 0 -> nonpositive (binary_normalize prec emax z e false).
Proof.
  intros Hz. destruct z as [ | p | p]; cbn [binary_normalize];
    [exact I | lia | ].
  unfold binary_round.
  destruct (shl_align p e _) as [mz ez].
  apply binary_round_aux_nonpositive.
Qed.

(** [x <= y] leaves [x - y] without a positive value. *)
Lemma SFsub_nonpositive (x y : spec_float) :
  valid_binary x = true -> valid_binary y = true ->
  SFleb x y = true -> nonpositive (SF64sub x y).
Proof.
  intros Vx Vy Hle.
  destruct x as [sx | sx | | sx mx ex], y as [sy | sy | | sy my ey];
    try discriminate Hle;
    try (destruct sx; try destruct sy; cbn in *;
         solve [exact I | reflexivity | discriminate]);
    try (destruct sy; cbn in *; solve [exact I | reflexivity | discriminate]).
  unfold SF64sub, SFsub. apply binary_normalize_nonpositive.
  cbn [valid_binary] in Vx, Vy.
  unfold SFleb, SFcompare in Hle.
  destruct sx, sy; cbn [cond_Zopp]; try discriminate Hle; try lia.
  - destruct (Z.compare_spec ex ey) as [E | L | G]; try discriminate Hle.
    + subst ey. rewrite !shl_align_same.
      change (Pos.compare_cont Eq mx my) with (Pos.compare mx my) in Hle.
      destruct (Pos.compare_spec mx my); cbn in Hle;
        try discriminate Hle; lia.
    + pose proof (aligned_lt my mx ey ex Vy Vx ltac:(lia)) as A.
      rewrite (Z.min_comm ey ex) in A. lia.
  - destruct (Z.compare_spec ex ey) as [E | L | G]; try discriminate Hle.
    + subst ey. rewrite !shl_align_same.
      change (Pos.compare_cont Eq mx my) with (Pos.compare mx my) in Hle.
      destruct (Pos.compare_spec mx my); try discriminate Hle; lia.
    + pose proof (aligned_lt mx my ex ey Vx Vy L) as A. lia.
Qed.

Lemma SFcompare_Eq_sym (x y : spec_float) :
  SFcompare x y = Some Eq -> SFcompare y x = Some Eq.
Proof.
  destruct x as [sx | sx | | sx mx ex], y as [sy | sy | | sy my ey]; cbn;
    try discriminate; try reflexivity;
    try (destruct sx; discriminate); try (destruct sy; discriminate);
    try (destruct sx, sy; (discriminate || reflexivity)).
  intros H.
  assert (E : ex = ey /\ mx = my).
  { destruct sx, sy; try discriminate H;
      destruct (Z.compare_spec ex ey); try discriminate H;
      destruct (Pos.compare_cont Eq mx my) eqn:C; try discriminate H;
      apply Pcompare_Eq_eq in C; auto. }
  destruct E; subst ey my.
  destruct sx, sy; try discriminate H;
    rewrite Z.compare_refl, Pcompare_refl; reflexivity.
Qed.

(** [a <= b] makes [a - b > 0.25] false. *)
Lemma sub_not_above (a b : float) :
  (a <=? b)%float = true -> float_gt (a - b)%float 0.25%float = false.
Proof.
  intros H. unfold float_gt. rewrite ltb_spec, sub_spec.
  rewrite leb_spec in H.
  change (Prim2SF 0.25) with (S754_finite false 4503599627370496 (-54)).
  apply SFltb_nonpositive.
  apply SFsub_nonpositive; auto using Prim2SF_valid.
Qed.

(** Python's [x == y] makes [x > y] false. *)
Lemma eqb_not_above (x y : float) :
  (x =? y)%float = true -> float_gt x y = false.
Proof.
  unfold float_gt. rewrite eqb_spec, ltb_spec. unfold SFeqb, SFltb.
  destruct (SFcompare (Prim2SF x) (Prim2SF y)) as [[ | | ] | ] eqn:C;
    try discriminate.
  intros _. rewrite (SFcompare_Eq_sym _ _ C). reflexivity.
Qed.

End Binary64.

(** ** Change debouncer *)

Module DebouncerFacts.

(** The three flags of [is_diff], read off the snapshots. *)
Lemma is_diff_cases (old new : FileInfo) :
  is_diff old new =
  if String.eqb (name old) (name new)
  then negb (size old =? size new)
       || float_gt (mtime new - mtime old)%float 0.25%float
  else true.
Proof.
  unfold is_diff. destruct (String.eqb (name old) (name new)); reflexivity.
Qed.

(** C1: [is_diff] reports a change exactly when the name differs, or the
    name is the same and the size differs or the difference of the
    modification times is above 0.25; with equal names and sizes a
    difference of exactly 0.25 is not a change, and with equal names a
    different size is a change whatever the times are. *)
Theorem is_diff_spec (old new : FileInfo) :
  (is_diff old new = true <->
     name old <> name new \/
     (name old = name new /\
      (size old <> size new \/
       float_gt (mtime new - mtime old)%float 0.25%float = true)))
  /\ (name old = name new -> size old = size new ->
      (mtime new - mtime old =? 0.25)%float = true ->
      is_diff old new = false)
  /\ (name old = name new -> size old <> size new ->
      is_diff old new = true).
Proof.
  rewrite is_diff_cases.
  destruct (String.eqb_spec (name old) (name new)) as [En | En];
    destruct (Z.eqb_spec (size old) (size new)) as [Es | Es]; cbn [negb orb].
  - split; [ | split].
    + split.
      * intros H. right. auto.
      * intros [H | (_ & [H | H])]; [contradiction | contradiction | exact H].
    + intros _ _ H. apply Binary64.eqb_not_above. exact H.
    + intros _ H. contradiction.
  - split; [ | split].
    + split; auto.
    + intros _ H. contradiction.
    + auto.
  - split; [ | split].
    + split; auto.
    + intros H. contradiction.
    + intros H. contradiction.
  - split; [ | split].
    + split; auto.
    + intros H. contradiction.
    + auto.
Qed.

(** A same-size rewrite of [report.py] a quarter of a second later is not a
    change; with a byte more it is one. *)
Lemma is_diff_spec_witness :
  is_diff (mkFileInfo 120 1.0%float "report.py")
          (mkFileInfo 120 1.25%float "report.py") = false
  /\ is_diff (mkFileInfo 120 1.0%float "report.py")
             (mkFileInfo 121 1.0%float "report.py") = true.
Proof.
  split.
  - apply (proj1 (proj2 (is_diff_spec _ _))); reflexivity.
  - apply (proj2 (proj2 (is_diff_spec _ _))); [reflexivity | cbn; lia].
Defined.

(** C5: against the snapshot a handler starts with, every snapshot of an
    observed file (a name that is not empty, a size that is not negative)
    is a change. *)
Theorem first_event_is_change (cb : M unit) (new : FileInfo) :
  name new <> "" -> 0 <= size new ->
  is_diff (old_file_info (init cb)) new = true.
Proof.
  intros Hname _. rewrite is_diff_cases. cbn [init old_file_info].
  destruct (String.eqb_spec (name initial_file_info) (name new)) as [E | E].
  - cbn in E. congruence.
  - reflexivity.
Qed.

Lemma first_event_is_change_witness :
  is_diff (old_file_info (init (ret tt)))
          (mkFileInfo 0 0%float "pkg/mod.py") = true.
Proof.
  apply first_event_is_change; [discriminate | cbn; lia].
Defined.

(** C9: the difference of the times is compared with its sign: with the
    same name and the same size, a modification time that is not later
    than the one before is not a change, however far back it lies. *)
Theorem is_diff_not_later (old new : FileInfo) :
  name old = name new -> size old = size new ->
  (mtime new <=? mtime old)%float = true ->
  is_diff old new = false.
Proof.
  intros En Es Ht. rewrite is_diff_cases.
  rewrite (proj2 (String.eqb_eq _ _) En), (proj2 (Z.eqb_eq _ _) Es).
  cbn [negb orb]. apply Binary64.sub_not_above. exact Ht.
Qed.

Lemma is_diff_not_later_witness :
  is_diff (mkFileInfo 120 1000%float "report.py")
          (mkFileInfo 120 1%float "report.py") = false.
Proof.
  apply is_diff_not_later; reflexivity.
Defined.

End DebouncerFacts.

(** ** Watch session *)

Module WatchFacts.

Lemma get_file_info_ok (path : string) (w : World) (sz : Z) (mt : float) :
  stat w path = Some (sz, mt) ->
  get_file_info path w = Ok (mkFileInfo sz mt path) w.
Proof.
  intros H. unfold get_file_info, bind, os_stat, ret.
  rewrite H. cbn. rewrite H. reflexivity.
Qed.

Lemma get_file_info_gone (path : string) (w : World) :
  stat w path = None ->
  get_file_info path w = Raise (FileNotFoundError path) w.
Proof.
  intros H. unfold get_file_info, bind, os_stat. rewrite H. reflexivity.
Qed.

(** A rebuild that fails on the one module of the package: the handler
    raises what the callback raised. *)
Lemma callback_failure_escapes :
  on_modified (init Samples.failing_build) Samples.modified_mod
    Samples.watch_world
  = Raise (BuildError "build failed") Samples.watch_world.
Proof. reflexivity. Qed.

(** C2, as the code has it: when the event is a change and the rebuild
    callback raises, the handler raises the same exception in the world the
    callback left: nothing is caught or logged, no notice is printed and
    the stored snapshot is not replaced. *)
Theorem callback_failure_propagates
    (self : Handler) (event : Event) (w w' : World)
    (sz : Z) (mt : float) (e : exn) :
  stat w (src_path event) = Some (sz, mt) ->
  is_diff (old_file_info self) (mkFileInfo sz mt (src_path event)) = true ->
  callback self w = Raise e w' ->
  callback_if_diff self event w = Raise e w'.
Proof.
  intros Hstat Hdiff Hcb. unfold callback_if_diff, bind.
  rewrite (get_file_info_ok _ _ _ _ Hstat), Hdiff, Hcb. reflexivity.
Qed.

Lemma callback_failure_propagates_witness :
  callback_if_diff (init Samples.failing_build) Samples.modified_mod
    Samples.watch_world
  = Raise (BuildError "build failed") Samples.watch_world.
Proof.
  apply (callback_failure_propagates _ _ _ _ 120 5%float); reflexivity.
Defined.

(** An event for a path that is gone: the handler raises. *)
Lemma deleted_path_escapes :
  stat Samples.watch_world (src_path Samples.modified_gone) = None
  /\ on_modified (init (ret tt)) Samples.modified_gone Samples.watch_world
     = Raise (FileNotFoundError "pkg/gone.py") Samples.watch_world.
Proof. split; reflexivity. Qed.

(** C3, as the code has it: when the path of the event cannot be read, the
    handler raises the error of the read in the world it started in: no
    callback is invoked, nothing is printed and the stored snapshot is not
    replaced. *)
Theorem deleted_path_raises (self : Handler) (event : Event) (w : World) :
  stat w (src_path event) = None ->
  callback_if_diff self event w
  = Raise (FileNotFoundError (src_path event)) w.
Proof.
  intros Hstat. unfold callback_if_diff, bind.
  rewrite (get_file_info_gone _ _ Hstat). reflexivity.
Qed.

Lemma deleted_path_raises_witness :
  callback_if_diff (init Samples.failing_build) Samples.modified_gone
    Samples.watch_world
  = Raise (FileNotFoundError "pkg/gone.py") Samples.watch_world.
Proof.
  apply (deleted_path_raises (init Samples.failing_build)
           Samples.modified_gone Samples.watch_world).
  reflexivity.
Defined.

(** When the event is not a change, only the stored snapshot changes. *)
Lemma callback_if_diff_same
    (self : Handler) (event : Event) (w : World) (sz : Z) (mt : float) :
  stat w (src_path event) = Some (sz, mt) ->
  is_diff (old_file_info self) (mkFileInfo sz mt (src_path event)) = false ->
  callback_if_diff self event w
  = Ok (mkHandler (callback self) (mkFileInfo sz mt (src_path event))) w.
Proof.
  intros Hstat Hdiff. unfold callback_if_diff, bind.
  rewrite (get_file_info_ok _ _ _ _ Hstat), Hdiff. reflexivity.
Qed.

(** When it is a change and the callback returns, the notice is printed
    and the new snapshot is stored. *)
Lemma callback_if_diff_changed
    (self : Handler) (event : Event) (w w' : World) (sz : Z) (mt : float) :
  stat w (src_path event) = Some (sz, mt) ->
  is_diff (old_file_info self) (mkFileInfo sz mt (src_path event)) = true ->
  callback self w = Ok tt w' ->
  exists line,
    callback_if_diff self event w
    = Ok (mkHandler (callback self) (mkFileInfo sz mt (src_path event)))
         (log (Print line) w').
Proof.
  intros Hstat Hdiff Hcb. unfold callback_if_diff, bind.
  rewrite (get_file_info_ok _ _ _ _ Hstat), Hdiff, Hcb.
  eexists. reflexivity.
Qed.

(** The first event of a fresh handler on a file that can be read runs
    the callback. *)
Lemma first_event_rebuilds
    (cb : M unit) (event : Event) (w : World) (sz : Z) (mt : float) :
  stat w (src_path event) = Some (sz, mt) ->
  src_path event <> EmptyString ->
  callback_if_diff (init cb) event w
  = (cb ;;; print_event event ;;;
     ret (mkHandler cb (mkFileInfo sz mt (src_path event)))) w.
Proof.
  intros Hstat Hname. unfold callback_if_diff. unfold bind at 1.
  rewrite (get_file_info_ok _ _ _ _ Hstat).
  rewrite DebouncerFacts.is_diff_cases. cbn [init old_file_info callback name].
  destruct (String.eqb_spec (name initial_file_info) (src_path event))
    as [E | E].
  - cbn in E. congruence.
  - unfold bind. destruct (cb w) as [u w1 | e w1]; reflexivity.
Qed.

End WatchFacts.

(** ** Build trigger *)

Module ScopeFacts.


(** A body that changes directory itself and then fails leaves the
    process where the scope was entered. *)
Example chdir_wandering_body :
  chdir "docs" Samples.wandering_body Samples.watch_world
  = Raise (BuildError "build failed")
      (set_cwd "/home/user/project"
         (set_cwd "/tmp" (set_cwd "docs" Samples.watch_world))).
Proof. reflexivity. Qed.

End ScopeFacts.

(** ** Inventory synchronizer *)

Module InterlinksFacts.

Lemma for_each_app
    {A : Type} (l1 l2 : list A) (body : A -> M unit) (w : World) :
  for_each (l1 ++ l2) body w
  = match for_each l1 body w with
    | Ok _ w1 => for_each l2 body w1
    | Raise e w1 => Raise e w1
    end.
Proof.
  revert w. induction l1 as [ | x l1 IH]; intros w; cbn [for_each app].
  - reflexivity.
  - unfold bind. destruct (body x w) as [u w1 | e w1]; [apply IH | reflexivity].
Qed.

Lemma interlinks_unfold (config : string) (dry_run : bool) (w : World)
    (m il srcs : list (string * yaml)) :
  config_files w config = Some (YMap m) ->
  lookup "interlinks" m = Some (YMap il) ->
  lookup "sources" il = Some (YMap srcs) ->
  interlinks config dry_run w
  = for_each srcs
      (interlinks_source (parent (of_string config)) (cache_of m)) w.
Proof.
  intros Hc Hi Hs. unfold interlinks, bind, load_config.
  rewrite Hc. cbn [py_get]. unfold ret at 1 2. rewrite Hi.
  cbn [py_index]. rewrite Hs. cbn [py_items]. unfold ret at 1. unfold cache_of.
  reflexivity.
Qed.

Lemma interlinks_source_sentinel
    (p_root : Path) (cache : yaml) (k : string) (v : yaml) (w : World) :
  is_sentinel v = true -> interlinks_source p_root cache (k, v) w = Ok tt w.
Proof.
  unfold is_sentinel, interlinks_source, bind.
  destruct v as [ | | | | | e]; try discriminate.
  cbn [py_index]. destruct (lookup "url" e) as [u | ]; try discriminate.
  intros H. unfold ret at 1. rewrite H. reflexivity.
Qed.

Lemma interlinks_source_request
    (p_root : Path) (cache : yaml) (k : string) (v : yaml) (u : string)
    (w : World) :
  source_url v = Some u ->
  interlinks_source p_root cache (k, v) w =
  (inv <- soi_Inventory (YStr u) ;;
   p_cache <- path_div p_root cache ;;
   p_dst <- path_div p_cache (YStr (k ++ "_objects.json")) ;;
   mkdir (parent p_dst) ;;;
   convert_inventory inv p_dst) w.
Proof.
  unfold source_url.
  destruct v as [ | | | | | e]; try discriminate.
  destruct (lookup "url" e) as [[ | | | b | | ] | ] eqn:Hu; try discriminate.
  destruct (String.eqb b "/") eqn:Hb; try discriminate.
  intros H.
  unfold interlinks_source, py_index, py_get, bind, ret.
  rewrite Hu. cbn [py_eq_str]. rewrite Hb.
  destruct (lookup "inv" e) as [[ | | | i | | ] | ]; try discriminate;
    inversion H; subst u; reflexivity.
Qed.

Lemma py_add_cases (a b : yaml) (w : World) :
  (exists y, py_add a b w = Ok y w) \/ py_add a b w = Raise TypeError w.
Proof.
  destruct a as [ | [ | ] | | | | ], b as [ | [ | ] | | | | ]; cbn;
    solve [left; eexists; reflexivity | right; reflexivity].
Qed.

Lemma interlinks_source_outcome
    (p_root : Path) (c k : string) (v : yaml) (w : World) :
  step_outcome p_root c k v w (interlinks_source p_root (YStr c) (k, v) w).
Proof.
  destruct (is_sentinel v) eqn:Hs.
  { rewrite interlinks_source_sentinel by exact Hs. constructor. exact Hs. }
  unfold interlinks_source, py_index, bind.
  destruct v as [ | | | | | e]; try (apply step_refused; exact Hs).
  unfold is_sentinel in Hs.
  destruct (lookup "url" e) as [u0 | ] eqn:Hu;
    [ | apply step_refused; unfold is_sentinel; rewrite Hu; reflexivity].
  assert (Hs' : is_sentinel (YMap e) = false)
    by (unfold is_sentinel; rewrite Hu; exact Hs).
  unfold ret at 1. rewrite Hs. unfold ret at 1.
  unfold py_get. unfold ret at 1.
  destruct (py_add_cases u0
              match lookup "inv" e with
              | Some v => v
              | None => YStr "objects.inv"
              end w)
    as [[y Hy] | Hy]; rewrite Hy; [ | apply step_refused; exact Hs'].
  destruct y as [ | | | u | | ]; try (apply step_refused; exact Hs').
  cbn [soi_Inventory].
  destruct (network w u) as [inv | ] eqn:Hn.
  - cbn. apply step_written; assumption.
  - apply step_fetch_failed; assumption.
Qed.

Lemma in_trace_log (e x : effect) (w : World) :
  In e (trace (log x w)) <-> In e (trace w) \/ e = x.
Proof.
  cbn [log trace]. rewrite in_app_iff. cbn. intuition congruence.
Qed.

Section CacheFiles.

Variables (p_root : Path) (c : string).

Let body := interlinks_source p_root (YStr c).

(** A round of the loop keeps the effects so far. *)
Lemma step_keeps (k : string) (v : yaml) (w : World) (e : effect) :
  In e (trace w) -> In e (trace (world_of (body (k, v) w))).
Proof.
  intros H. unfold body.
  destruct (interlinks_source_outcome p_root c k v w)
    as [Hs | x Hs | u Hs Hn | u i Hs Hn]; cbn [world_of];
    rewrite ?in_trace_log; auto.
Qed.

(** The only file a round writes is the cache file of its source. *)
Lemma step_writes (k : string) (v : yaml) (w : World)
    (inv : Inventory) (p : Path) :
  In (Convert inv p) (trace (world_of (body (k, v) w))) ->
  In (Convert inv p) (trace w) \/ p = cache_path p_root c k.
Proof.
  unfold body.
  destruct (interlinks_source_outcome p_root c k v w)
    as [Hs | x Hs | u Hs Hn | u i Hs Hn]; cbn [world_of];
    rewrite ?in_trace_log; intros H; auto.
  - destruct H as [H | H]; [auto | discriminate].
  - destruct H as [[[H | H] | H] | H];
      [auto | discriminate | discriminate | inversion H; auto].
Qed.

(** A round that returns has written the cache file of its source, unless
    the source is the local root. *)
Lemma step_written_on_return (k : string) (v : yaml) (w w' : World) :
  body (k, v) w = Ok tt w' -> is_sentinel v = false ->
  exists inv, In (Convert inv (cache_path p_root c k)) (trace w').
Proof.
  unfold body. intros H Hs.
  destruct (interlinks_source_outcome p_root c k v w)
    as [Hs' | x Hs' | u Hs' Hn | u i Hs' Hn]; try congruence.
  inversion H; subst w'. exists i. rewrite in_trace_log. auto.
Qed.

Lemma loop_keeps (srcs : list (string * yaml)) (w : World) (e : effect) :
  In e (trace w) -> In e (trace (world_of (for_each srcs body w))).
Proof.
  revert w. induction srcs as [ | [k v] srcs IH]; intros w H; cbn [for_each].
  - exact H.
  - unfold bind. pose proof (step_keeps k v w e H) as K.
    destruct (body (k, v) w) as [u w1 | x w1]; cbn [world_of] in *; auto.
Qed.

Lemma loop_writes (srcs : list (string * yaml)) (w : World)
    (inv : Inventory) (p : Path) :
  In (Convert inv p) (trace (world_of (for_each srcs body w))) ->
  In (Convert inv p) (trace w)
  \/ exists k v, In (k, v) srcs /\ p = cache_path p_root c k.
Proof.
  revert w. induction srcs as [ | [k v] srcs IH]; intros w; cbn [for_each].
  - cbn. auto.
  - unfold bind. pose proof (step_writes k v w inv p) as S.
    destruct (body (k, v) w) as [u w1 | x w1]; cbn [world_of] in *; intros H.
    + destruct (IH w1 H) as [H1 | (k' & v' & Hin & Hp)].
      * destruct (S H1) as [H0 | H0]; [auto | ].
        right. exists k, v. split; [left; reflexivity | exact H0].
      * right. exists k', v'. split; [right; exact Hin | exact Hp].
    + destruct (S H) as [H0 | H0]; [auto | ].
      right. exists k, v. split; [left; reflexivity | exact H0].
Qed.

Lemma loop_written_on_return (srcs : list (string * yaml)) (w w' : World) :
  for_each srcs body w = Ok tt w' ->
  forall k v, In (k, v) srcs -> is_sentinel v = false ->
  exists inv, In (Convert inv (cache_path p_root c k)) (trace w').
Proof.
  revert w. induction srcs as [ | [k0 v0] srcs IH]; intros w H k v Hin Hs.
  - destruct Hin.
  - cbn [for_each] in H. unfold bind in H.
    destruct (body (k0, v0) w) as [[] w1 | x w1] eqn:Hb; [ | discriminate].
    destruct Hin as [Heq | Hin].
    + inversion Heq; subst k0 v0.
      destruct (step_written_on_return k v w w1 Hb Hs) as [inv Hinv].
      exists inv. pose proof (loop_keeps srcs w1 _ Hinv) as K.
      rewrite H in K. exact K.
    + exact (IH w1 H k v Hin Hs).
Qed.

End CacheFiles.

(** The loop passes over the sources that are the local root. *)
Lemma loop_skips_sentinels
    (p_root : Path) (cache : yaml) (srcs : list (string * yaml)) (w : World) :
  for_each srcs (interlinks_source p_root cache) w
  = for_each (filter (fun kv => negb (is_sentinel (snd kv))) srcs)
      (interlinks_source p_root cache) w.
Proof.
  revert w. induction srcs as [ | [k v] srcs IH]; intros w; [reflexivity | ].
  cbn [filter snd for_each]. destruct (is_sentinel v) eqn:Hv; cbn [negb].
  - unfold bind. rewrite interlinks_source_sentinel by exact Hv. apply IH.
  - cbn [for_each]. unfold bind.
    destruct (interlinks_source p_root cache (k, v) w) as [u w1 | e w1];
      [apply IH | reflexivity].
Qed.

(** C10: [--dry-run] changes nothing in what [interlinks] does: with and
    without it the command ends in the same way in the same world, a world
    that holds the requests made and the files written. *)
Theorem dry_run_ignored (config : string) (d1 d2 : bool) (w : World) :
  interlinks config d1 w = interlinks config d2 w.
Proof. reflexivity. Qed.

(** C7: a source whose [url] is ["/"] costs no request and no file, and
    the command does what it would do on the other sources alone. *)
Theorem sentinel_sources_skipped
    (config : string) (dry_run : bool) (w : World)
    (m il srcs : list (string * yaml)) :
  config_files w config = Some (YMap m) ->
  lookup "interlinks" m = Some (YMap il) ->
  lookup "sources" il = Some (YMap srcs) ->
  let step := interlinks_source (parent (of_string config)) (cache_of m) in
  interlinks config dry_run w
  = for_each (filter (fun kv => negb (is_sentinel (snd kv))) srcs) step w
  /\ (forall k v w1, In (k, v) srcs -> is_sentinel v = true ->
        step (k, v) w1 = Ok tt w1).
Proof.
  intros Hc Hi Hs step. split.
  - rewrite (interlinks_unfold _ _ _ _ _ _ Hc Hi Hs).
    apply loop_skips_sentinels.
  - intros k v w1 _ Hv. apply interlinks_source_sentinel. exact Hv.
Qed.

(** The project that lists itself: only the source [A] is processed. *)
Lemma sentinel_sources_skipped_witness :
  interlinks "_quarto.yml" false Samples.docs_world
  = for_each [("A", YMap [("url", YStr "https://a.example/")])]
      (interlinks_source (mkPath "" []) (YStr "_inv")) Samples.docs_world.
Proof.
  exact (proj1 (sentinel_sources_skipped "_quarto.yml" false Samples.docs_world
                  Samples.cached_config _ Samples.cached_sources
                  eq_refl eq_refl eq_refl)).
Defined.

(** Three sources of which the second cannot be fetched: the command
    raises at the second, and the third, whose inventory is there to be
    fetched, is neither requested nor written. *)
Lemma fetch_failure_stops_later_sources :
  Samples.docs_network "https://c.example/objects.inv" = Some Samples.inv_c
  /\ interlinks "abc/_quarto.yml" false Samples.docs_world
     = Raise (InventoryError "https://b.example/objects.inv")
         (log (Fetch "https://b.example/objects.inv")
            Samples.docs_world_after_A)
  /\ trace (log (Fetch "https://b.example/objects.inv")
              Samples.docs_world_after_A)
     = [Fetch "https://a.example/objects.inv";
        Mkdir (mkPath "" ["abc"; "_inv"]);
        Convert Samples.inv_a (mkPath "" ["abc"; "_inv"; "A_objects.json"]);
        Fetch "https://b.example/objects.inv"].
Proof. repeat split; reflexivity. Qed.

(** C4, as the code has it: a source whose inventory cannot be fetched or
    parsed ends the command with that failure. The sources before it in
    the mapping have been processed; of those after it none is requested
    and none is written. *)
Theorem fetch_failure_aborts
    (config : string) (dry_run : bool) (w w1 : World)
    (m il l1 l2 : list (string * yaml)) (k : string) (v : yaml) (u : string) :
  config_files w config = Some (YMap m) ->
  lookup "interlinks" m = Some (YMap il) ->
  lookup "sources" il = Some (YMap (l1 ++ (k, v) :: l2)) ->
  for_each l1 (interlinks_source (parent (of_string config)) (cache_of m)) w
  = Ok tt w1 ->
  source_url v = Some u ->
  network w1 u = None ->
  interlinks config dry_run w = Raise (InventoryError u) (log (Fetch u) w1).
Proof.
  intros Hc Hi Hs Hl1 Hu Hn.
  rewrite (interlinks_unfold _ _ _ _ _ _ Hc Hi Hs).
  rewrite for_each_app, Hl1. cbn [for_each]. unfold bind at 1.
  rewrite (interlinks_source_request _ _ _ _ _ _ Hu).
  unfold bind at 1. cbn [soi_Inventory]. rewrite Hn. reflexivity.
Qed.

Lemma fetch_failure_aborts_witness :
  interlinks "abc/_quarto.yml" false Samples.docs_world
  = Raise (InventoryError "https://b.example/objects.inv")
      (log (Fetch "https://b.example/objects.inv") Samples.docs_world_after_A).
Proof.
  apply (fetch_failure_aborts "abc/_quarto.yml" false Samples.docs_world
           Samples.docs_world_after_A Samples.abc_config
           [("sources", YMap Samples.abc_sources)]
           [("A", YMap [("url", YStr "https://a.example/")])]
           [("C", YMap [("url", YStr "https://c.example/")])]
           "B" (YMap [("url", YStr "https://b.example/")])
           "https://b.example/objects.inv");
    reflexivity.
Defined.

(** A configuration whose [interlinks] block names the cache directory
    [mycache]: the file of the source [A] goes to [_inv]. *)
Lemma cache_key_of_interlinks_unused :
  lookup "interlinks" Samples.cached_config
  = Some (YMap [("cache", YStr "mycache");
                ("sources", YMap Samples.cached_sources)])
  /\ trace (world_of (interlinks "_quarto.yml" false Samples.docs_world))
     = [Fetch "https://a.example/objects.inv";
        Mkdir (mkPath "" ["_inv"]);
        Convert Samples.inv_a (mkPath "" ["_inv"; "A_objects.json"])]
  /\ to_string (mkPath "" ["_inv"; "A_objects.json"]) = "_inv/A_objects.json".
Proof. repeat split; reflexivity. Qed.

(** C6, as the code has it: the cache directory [c] is the value of the
    top-level key [cache] of the configuration, [_inv] without the key,
    taken from the directory of the configuration file. Every file the
    command writes is [{k}_objects.json] in that directory for a source
    [k], and when the command returns, every source other than the local
    root has its file there. *)
Theorem cache_file_location
    (config : string) (dry_run : bool) (w : World)
    (m il srcs : list (string * yaml)) (c : string) :
  config_files w config = Some (YMap m) ->
  lookup "interlinks" m = Some (YMap il) ->
  lookup "sources" il = Some (YMap srcs) ->
  cache_of m = YStr c ->
  let p_root := parent (of_string config) in
  let r := interlinks config dry_run w in
  (forall inv p, In (Convert inv p) (trace (world_of r)) ->
     In (Convert inv p) (trace w)
     \/ exists k v, In (k, v) srcs /\ p = cache_path p_root c k)
  /\ (forall w', r = Ok tt w' ->
      forall k v, In (k, v) srcs -> is_sentinel v = false ->
      exists inv, In (Convert inv (cache_path p_root c k)) (trace w'))
  /\ (forall v, lookup "cache" m = Some v -> v = YStr c)
  /\ (lookup "cache" m = None -> c = "_inv").
Proof.
  intros Hc Hi Hs Hcache p_root r. subst r.
  rewrite (interlinks_unfold _ _ _ _ _ _ Hc Hi Hs), Hcache. fold p_root.
  unfold cache_of in Hcache.
  split; [ | split; [ | split]].
  - intros inv p. apply loop_writes.
  - intros w'. apply loop_written_on_return.
  - intros v Hv. rewrite Hv in Hcache. exact Hcache.
  - intros Hv. rewrite Hv in Hcache. inversion Hcache. reflexivity.
Qed.

Lemma cache_file_location_witness :
  exists inv,
    In (Convert inv (cache_path (mkPath "" []) "_inv" "A"))
       (trace (log (Convert Samples.inv_a (mkPath "" ["_inv"; "A_objects.json"]))
                 (log (Mkdir (mkPath "" ["_inv"]))
                    (log (Fetch "https://a.example/objects.inv")
                       Samples.docs_world)))).
Proof.
  apply (proj1 (proj2 (cache_file_location "_quarto.yml" false
                         Samples.docs_world Samples.cached_config _
                         Samples.cached_sources "_inv"
                         eq_refl eq_refl eq_refl eq_refl))
           _ eq_refl "A" (YMap [("url", YStr "https://a.example/")])).
  - right. left. reflexivity.
  - reflexivity.
Defined.

End InterlinksFacts.

(** ** More on binary64 differences *)

Module Binary64More.

Lemma SFcompare_refl_finite (s : bool) (m : positive) (e : Z) :
  SFcompare (S754_finite s m e) (S754_finite s m e) = Some Eq.
Proof.
  cbn. rewrite Z.compare_refl, Pcompare_refl. destruct s; reflexivity.
Qed.

(** [x - x] has no positive value. *)
Lemma SFsub_same_nonpositive (x : spec_float) :
  valid_binary x = true -> nonpositive (SF64sub x x).
Proof.
  intros V. destruct x as [s | s | | s m e].
  - destruct s; exact I.
  - destruct s; exact I.
  - exact I.
  - apply Binary64.SFsub_nonpositive; try exact V.
    unfold SFleb. rewrite SFcompare_refl_finite. reflexivity.
Qed.

Lemma sub_same_not_above (a : float) :
  float_gt (a - a)%float 0.25%float = false.
Proof.
  unfold float_gt. rewrite ltb_spec, sub_spec.
  change (Prim2SF 0.25) with (S754_finite false 4503599627370496 (-54)).
  apply Binary64.SFltb_nonpositive.
  apply SFsub_same_nonpositive. apply Prim2SF_valid.
Qed.

Lemma SFcompare_None (x y : spec_float) :
  SFcompare x y = None -> x = S754_nan \/ y = S754_nan.
Proof.
  destruct x as [sx | sx | | sx mx ex], y as [sy | sy | | sy my ey]; cbn;
    try discriminate; auto.
Qed.

Lemma SFcompare_Gt_Lt (x y : spec_float) :
  SFcompare x y = Some Gt -> SFcompare y x = Some Lt.
Proof.
  destruct x as [sx | sx | | sx mx ex], y as [sy | sy | | sy my ey]; cbn;
    try discriminate;
    try (destruct sx; discriminate || reflexivity);
    try (destruct sy; discriminate || reflexivity);
    try (destruct sx, sy; discriminate || reflexivity).
  change (Pos.compare_cont Eq mx my) with (Pos.compare mx my).
  change (Pos.compare_cont Eq my mx) with (Pos.compare my mx).
  rewrite (Z.compare_antisym ex ey), (Pos.compare_antisym mx my).
  destruct sx, sy; try discriminate; try reflexivity;
    destruct (ex ?= ey); cbn; try discriminate; try reflexivity;
    destruct (mx ?= my)%positive; cbn; try discriminate; reflexivity.
Qed.

Lemma SFsub_nan_l (y : spec_float) : SF64sub S754_nan y = S754_nan.
Proof. reflexivity. Qed.

Lemma SFsub_nan_r (x : spec_float) : SF64sub x S754_nan = S754_nan.
Proof. destruct x; reflexivity. Qed.

(** [a - b > 0.25] needs [b < a]. *)
Lemma sub_above_lt (a b : float) :
  float_gt (a - b)%float 0.25%float = true -> (b <? a)%float = true.
Proof.
  unfold float_gt. rewrite !ltb_spec, sub_spec.
  change (Prim2SF 0.25) with (S754_finite false 4503599627370496 (-54)).
  intros H. unfold SFltb at 1.
  destruct (SFcompare (Prim2SF a) (Prim2SF b)) as [[ | | ] | ] eqn:C.
  - rewrite Binary64.SFltb_nonpositive in H; [discriminate | ].
    apply Binary64.SFsub_nonpositive; auto using Prim2SF_valid.
    unfold SFleb. rewrite C. reflexivity.
  - rewrite Binary64.SFltb_nonpositive in H; [discriminate | ].
    apply Binary64.SFsub_nonpositive; auto using Prim2SF_valid.
    unfold SFleb. rewrite C. reflexivity.
  - rewrite (SFcompare_Gt_Lt _ _ C). reflexivity.
  - destruct (SFcompare_None _ _ C) as [E | E]; rewrite E in H.
    + rewrite SFsub_nan_l in H. discriminate H.
    + rewrite SFsub_nan_r in H. discriminate H.
Qed.

End Binary64More.

(** ** More on the change debouncer *)

Module DebouncerMore.

Lemma is_diff_same (fi : FileInfo) : is_diff fi fi = false.
Proof.
  rewrite DebouncerFacts.is_diff_cases.
  rewrite String.eqb_refl, Z.eqb_refl. cbn [negb orb].
  apply Binary64More.sub_same_not_above.
Qed.

(** X1: a snapshot is never a change against itself, whatever its
    modification time is (infinite and not-a-number included). *)
Theorem is_diff_irreflexive (sz : Z) (mt : float) (nm : string) :
  is_diff (mkFileInfo sz mt nm) (mkFileInfo sz mt nm) = false.
Proof. apply is_diff_same. Qed.

(** X2: with the same name and the same size, a change is reported only
    when the modification time has moved forward: the time of the snapshot
    before is below the new one. *)
Theorem is_diff_time_forward (old new : FileInfo) :
  name old = name new -> size old = size new ->
  is_diff old new = true ->
  (mtime old <? mtime new)%float = true.
Proof.
  intros En Es H. rewrite DebouncerFacts.is_diff_cases in H.
  rewrite (proj2 (String.eqb_eq _ _) En), (proj2 (Z.eqb_eq _ _) Es) in H.
  cbn [negb orb] in H. apply Binary64More.sub_above_lt. exact H.
Qed.

Lemma is_diff_time_forward_witness :
  (mtime (mkFileInfo 120 1%float "report.py")
   <? mtime (mkFileInfo 120 2%float "report.py"))%float = true.
Proof.
  apply is_diff_time_forward; reflexivity.
Defined.

End DebouncerMore.

(** ** More on the per-event handler *)

Module WatchMore.

(** What a handler that returns has done. *)
Lemma callback_if_diff_returns
    (self h' : Handler) (event : Event) (w w' : World) :
  callback_if_diff self event w = Ok h' w' ->
  exists sz mt,
    stat w (src_path event) = Some (sz, mt)
    /\ h' = mkHandler (callback self) (mkFileInfo sz mt (src_path event))
    /\ ((is_diff (old_file_info self) (mkFileInfo sz mt (src_path event))
         = false /\ w' = w)
        \/ (is_diff (old_file_info self) (mkFileInfo sz mt (src_path event))
            = true
            /\ exists w0, callback self w = Ok tt w0
                          /\ w' = world_of (print_event event w0))).
Proof.
  intros H.
  destruct (stat w (src_path event)) as [[sz mt] | ] eqn:Hstat.
  - exists sz, mt. split; [reflexivity | ].
    unfold callback_if_diff, bind in H.
    rewrite (WatchFacts.get_file_info_ok _ _ _ _ Hstat) in H.
    destruct (is_diff (old_file_info self) (mkFileInfo sz mt (src_path event))).
    + destruct (callback self w) as [[] w0 | e w0]; [ | discriminate H].
      cbn in H. inversion H. split; [reflexivity | ].
      right. split; [reflexivity | ]. exists w0. split; reflexivity.
    + cbn in H. inversion H. split; [reflexivity | ].
      left. split; reflexivity.
  - unfold callback_if_diff, bind in H.
    rewrite (WatchFacts.get_file_info_gone _ _ Hstat) in H. discriminate H.
Qed.

(** X3: whenever the handler returns, with or without a rebuild, it holds
    the snapshot of the event it has just read, and the callback it had. *)
Theorem handler_stores_latest_snapshot
    (self h' : Handler) (event : Event) (w w' : World) :
  callback_if_diff self event w = Ok h' w' ->
  callback h' = callback self
  /\ name (old_file_info h') = src_path event
  /\ stat w (src_path event)
     = Some (size (old_file_info h'), mtime (old_file_info h')).
Proof.
  intros H.
  destruct (callback_if_diff_returns _ _ _ _ _ H) as (sz & mt & Hs & Hh & _).
  subst h'. cbn. auto.
Qed.

Lemma handler_stores_latest_snapshot_witness :
  callback (mkHandler Samples.failing_build
              (mkFileInfo 120 5%float "pkg/mod.py"))
  = callback (mkHandler Samples.failing_build
                (mkFileInfo 120 5%float "pkg/mod.py"))
  /\ name (old_file_info (mkHandler Samples.failing_build
                            (mkFileInfo 120 5%float "pkg/mod.py")))
     = src_path Samples.modified_mod
  /\ stat Samples.watch_world (src_path Samples.modified_mod)
     = Some (120, 5%float).
Proof.
  apply (handler_stores_latest_snapshot
           (mkHandler Samples.failing_build
              (mkFileInfo 120 5%float "pkg/mod.py"))
           (mkHandler Samples.failing_build
              (mkFileInfo 120 5%float "pkg/mod.py"))
           Samples.modified_mod Samples.watch_world Samples.watch_world).
  reflexivity.
Defined.

(** X4: an event for the same file with nothing changed since the handler
    returned from the event before does nothing: no rebuild, no notice, the
    same handler. *)
Theorem repeated_event_debounced
    (self h1 : Handler) (event : Event) (w w1 : World) :
  callback_if_diff self event w = Ok h1 w1 ->
  stat w1 (src_path event) = stat w (src_path event) ->
  callback_if_diff h1 event w1 = Ok h1 w1.
Proof.
  intros H Hstat.
  destruct (callback_if_diff_returns _ _ _ _ _ H) as (sz & mt & Hs & Hh & _).
  rewrite Hs in Hstat. subst h1.
  rewrite (WatchFacts.callback_if_diff_same _ _ _ sz mt Hstat).
  - reflexivity.
  - apply DebouncerMore.is_diff_same.
Qed.

Lemma repeated_event_debounced_witness :
  callback_if_diff
    (mkHandler MoreSamples.quiet_build (mkFileInfo 120 5%float "pkg/mod.py"))
    Samples.modified_mod
    (log (Print "Rebuilding docs.  Detected: modified path : pkg/mod.py")
       Samples.watch_world)
  = Ok (mkHandler MoreSamples.quiet_build
          (mkFileInfo 120 5%float "pkg/mod.py"))
       (log (Print "Rebuilding docs.  Detected: modified path : pkg/mod.py")
          Samples.watch_world).
Proof.
  apply (repeated_event_debounced (init MoreSamples.quiet_build) _
           Samples.modified_mod Samples.watch_world); reflexivity.
Defined.

(** X5: an event for another path than the event before always runs the
    callback and then prints the notice, whatever the sizes and the times
    are; the notice names the kind of the event and the path. *)
Theorem other_path_always_rebuilds
    (self : Handler) (event : Event) (w : World) (sz : Z) (mt : float) :
  stat w (src_path event) = Some (sz, mt) ->
  name (old_file_info self) <> src_path event ->
  callback_if_diff self event w
  = match callback self w with
    | Ok _ w' =>
        Ok (mkHandler (callback self) (mkFileInfo sz mt (src_path event)))
           (log (Print ("Rebuilding docs.  Detected: " ++ event_type event
                        ++ " path : " ++ src_path event)) w')
    | Raise e w' => Raise e w'
    end.
Proof.
  intros Hstat Hname. unfold callback_if_diff. unfold bind at 1.
  rewrite (WatchFacts.get_file_info_ok _ _ _ _ Hstat).
  rewrite DebouncerFacts.is_diff_cases. cbn [name].
  destruct (String.eqb_spec (name (old_file_info self)) (src_path event))
    as [E | E]; [contradiction | ].
  unfold bind. destruct (callback self w) as [u w1 | e w1]; reflexivity.
Qed.

Lemma other_path_always_rebuilds_witness :
  callback_if_diff
    (mkHandler MoreSamples.quiet_build (mkFileInfo 120 5%float "pkg/other.py"))
    Samples.modified_mod Samples.watch_world
  = Ok (mkHandler MoreSamples.quiet_build
          (mkFileInfo 120 5%float "pkg/mod.py"))
       (log (Print "Rebuilding docs.  Detected: modified path : pkg/mod.py")
          Samples.watch_world).
Proof.
  apply (other_path_always_rebuilds
           (mkHandler MoreSamples.quiet_build
              (mkFileInfo 120 5%float "pkg/other.py"))
           Samples.modified_mod Samples.watch_world 120 5%float);
    [reflexivity | discriminate].
Defined.

(** X6: an event that is not reported still replaces the stored snapshot,
    so the event after it is compared with it: when that one is no change
    against the unreported snapshot, it is not reported either, whatever it
    is against the snapshot before. *)
Theorem suppressed_event_moves_baseline
    (self : Handler) (event : Event) (w1 w2 : World)
    (sz1 sz2 : Z) (mt1 mt2 : float) :
  let fi1 := mkFileInfo sz1 mt1 (src_path event) in
  let fi2 := mkFileInfo sz2 mt2 (src_path event) in
  stat w1 (src_path event) = Some (sz1, mt1) ->
  stat w2 (src_path event) = Some (sz2, mt2) ->
  is_diff (old_file_info self) fi1 = false ->
  is_diff fi1 fi2 = false ->
  callback_if_diff self event w1 = Ok (mkHandler (callback self) fi1) w1
  /\ callback_if_diff (mkHandler (callback self) fi1) event w2
     = Ok (mkHandler (callback self) fi2) w2.
Proof.
  intros fi1 fi2 H1 H2 D1 D2. split.
  - apply WatchFacts.callback_if_diff_same; assumption.
  - apply (WatchFacts.callback_if_diff_same
             (mkHandler (callback self) fi1) event w2 sz2 mt2 H2).
    exact D2.
Qed.

(** Same-size writes of [report.py] at 1.0, 1.25 and 1.5: the third is a
    change against the first, and is not reported. *)
Lemma suppressed_event_moves_baseline_witness :
  is_diff (mkFileInfo 120 1%float "report.py")
          (mkFileInfo 120 1.5%float "report.py") = true
  /\ callback_if_diff
       (mkHandler Samples.failing_build (mkFileInfo 120 1%float "report.py"))
       MoreSamples.modified_report (MoreSamples.report_world 1.25%float)
     = Ok (mkHandler Samples.failing_build
             (mkFileInfo 120 1.25%float "report.py"))
          (MoreSamples.report_world 1.25%float)
  /\ callback_if_diff
       (mkHandler Samples.failing_build (mkFileInfo 120 1.25%float "report.py"))
       MoreSamples.modified_report (MoreSamples.report_world 1.5%float)
     = Ok (mkHandler Samples.failing_build
             (mkFileInfo 120 1.5%float "report.py"))
          (MoreSamples.report_world 1.5%float).
Proof.
  split; [reflexivity | ].
  apply (suppressed_event_moves_baseline
           (mkHandler Samples.failing_build
              (mkFileInfo 120 1%float "report.py"))
           MoreSamples.modified_report
           (MoreSamples.report_world 1.25%float)
           (MoreSamples.report_world 1.5%float)
           120 120 1.25%float 1.5%float); reflexivity.
Defined.

End WatchMore.

(** ** More on the scoped change of working directory *)

Module ScopeMore.



End ScopeMore.

(** ** More on the [build] command *)

Module BuildFacts.

Section Collaborators.

Variable Builder : Type.
Variable from_quarto_config : string -> M Builder.
Variable enable_logs : M unit.

(** X8: with [--dry-run] the pipeline and the watch session are never
    entered: the command does the same whatever they are, whatever the
    filter is and whether [--watch] is given. The configuration is still
    loaded, and the logs are still set up. *)
Theorem dry_run_builds_nothing
    (build1 build2 : Builder -> string -> M unit)
    (session1 session2 : Builder -> M unit -> M unit)
    (config filter1 filter2 : string) (watch1 watch2 verbose : bool)
    (w : World) :
  build Builder from_quarto_config build1 enable_logs session1
    config filter1 true watch1 verbose w
  = ((if verbose then enable_logs else ret tt) ;;;
     builder <- from_quarto_config config ;; ret tt) w
  /\ build Builder from_quarto_config build1 enable_logs session1
       config filter1 true watch1 verbose w
     = build Builder from_quarto_config build2 enable_logs session2
         config filter2 true watch2 verbose w.
Proof. split; reflexivity. Qed.

Variable builder_build : Builder -> string -> M unit.
Variable watch_session : Builder -> M unit -> M unit.


End Collaborators.


End BuildFacts.

(** ** Locating the package *)

Module PackagesFacts.

Import Packages.

(** X10: [get_package_path] returns the first entry of the [__path__] of
    the imported package. Every [ModuleNotFoundError] of the import, for
    the package itself or for a module the package imports, comes out as a
    [ModuleNotFoundError] that names the package asked for, with the
    message of the code; any other exception comes out as it is. *)
Theorem get_package_path_outcomes
    (import_module : string -> import_error + PyModule)
    (package_name : string) :
  (forall p,
     get_package_path import_module package_name = inr p <->
     exists lib rest,
       import_module package_name = inr lib
       /\ path_attr lib = Some (p :: rest))
  /\ (forall msg,
        get_package_path import_module package_name
        = inl (ModuleNotFoundError msg) <->
        (exists msg0,
           import_module package_name = inl (ModuleNotFoundError msg0))
        /\ msg = "Package " ++ package_name
                 ++ " not found.  Please install it in your environment.")
  /\ (forall class msg,
        import_module package_name = inl (OtherError class msg) ->
        get_package_path import_module package_name
        = inl (OtherError class msg)).
Proof.
  unfold get_package_path, first_path.
  destruct (import_module package_name) as [[m0 | c0 m0] | lib] eqn:E.
  - split; [ | split].
    + intros p. split; [discriminate | ].
      intros (lib & rest & Hl & _). discriminate Hl.
    + intros msg. split.
      * intros Hm. inversion Hm. split; [exists m0 | ]; reflexivity.
      * intros [_ Hm]. subst msg. reflexivity.
    + intros class msg Hc. discriminate Hc.
  - split; [ | split].
    + intros p. split; [discriminate | ].
      intros (lib & rest & Hl & _). discriminate Hl.
    + intros msg. split; [discriminate | ].
      intros [(msg0 & Hm) _]. discriminate Hm.
    + intros class msg Hc. inversion Hc. reflexivity.
  - split; [ | split].
    + intros p. split.
      * destruct lib as [[[ | p0 rest0] | ]]; cbn; try discriminate.
        intros Hp. inversion Hp. subst p0.
        exists (mkModule (Some (p :: rest0))), rest0.
        split; reflexivity.
      * intros (lib' & rest & Hl & Hp). inversion Hl. subst lib'.
        rewrite Hp. reflexivity.
    + intros msg. split.
      * destruct lib as [[[ | p0 rest0] | ]]; cbn; discriminate.
      * intros [(msg0 & Hm) _]. discriminate Hm.
    + intros class msg Hc. discriminate Hc.
Qed.

(** A package whose import misses [yaml] is reported as missing itself. *)
Lemma get_package_path_outcomes_witness :
  get_package_path MoreSamples.sample_import "broken"
  = inl (ModuleNotFoundError
           "Package broken not found.  Please install it in your environment.")
  /\ get_package_path MoreSamples.sample_import "quartodoc"
     = inr "/site-packages/quartodoc".
Proof.
  split.
  - apply (proj2 (proj1 (proj2 (get_package_path_outcomes
                                  MoreSamples.sample_import "broken")) _)).
    split; [eexists; reflexivity | reflexivity].
  - apply (proj2 (proj1 (get_package_path_outcomes
                           MoreSamples.sample_import "quartodoc") _)).
    eexists. eexists. split; reflexivity.
Defined.

End PackagesFacts.

(** ** More on the [interlinks] command *)

Module InterlinksMore.

Import InterlinksFacts.

(** X11: a configuration without an [interlinks] key, or with an empty
    one, gets the notice and nothing else: the command returns, and nothing
    is requested or written. *)
Theorem no_interlinks_notice
    (config : string) (dry_run : bool) (w : World)
    (m : list (string * yaml)) :
  config_files w config = Some (YMap m) ->
  lookup "interlinks" m = None \/ lookup "interlinks" m = Some YNull ->
  interlinks config dry_run w
  = Ok tt
      (log (Print "No interlinks field found in your quarto config. Quitting.")
         w).
Proof.
  intros Hc Hi. unfold interlinks, bind, load_config. rewrite Hc.
  cbn [py_get]. unfold ret.
  destruct Hi as [Hi | Hi]; rewrite Hi; reflexivity.
Qed.

Lemma no_interlinks_notice_witness :
  interlinks "none.yml" false MoreSamples.edge_world
  = Ok tt
      (log (Print "No interlinks field found in your quarto config. Quitting.")
         MoreSamples.edge_world).
Proof.
  apply (no_interlinks_notice "none.yml" false MoreSamples.edge_world
           MoreSamples.no_interlinks_config);
    [reflexivity | left; reflexivity].
Defined.

(** X12: a configuration file that is not there, or whose document is not
    a mapping (an empty file is the null document), makes the command
    raise before anything is printed, requested or written: there is no
    notice for it. *)
Theorem unusable_config_raises
    (config : string) (dry_run : bool) (w : World) :
  (config_files w config = None ->
   interlinks config dry_run w = Raise (FileNotFoundError config) w)
  /\ (forall cfg, config_files w config = Some cfg ->
      (forall m, cfg <> YMap m) ->
      interlinks config dry_run w = Raise AttributeError w).
Proof.
  split.
  - intros Hc. unfold interlinks, bind, load_config. rewrite Hc. reflexivity.
  - intros cfg Hc Hm. unfold interlinks, bind, load_config. rewrite Hc.
    destruct cfg as [ | b | z | s | l | m]; try reflexivity.
    destruct (Hm m eq_refl).
Qed.

Lemma unusable_config_raises_witness :
  interlinks "absent.yml" false MoreSamples.edge_world
  = Raise (FileNotFoundError "absent.yml") MoreSamples.edge_world
  /\ interlinks "empty.yml" false MoreSamples.edge_world
     = Raise AttributeError MoreSamples.edge_world.
Proof.
  split.
  - apply (proj1 (unusable_config_raises "absent.yml" false
                    MoreSamples.edge_world)).
    reflexivity.
  - apply (proj2 (unusable_config_raises "empty.yml" false
                    MoreSamples.edge_world) YNull);
      [reflexivity | discriminate].
Defined.

(** X13: an [interlinks] block without [sources] raises [KeyError] for
    that key, and a block that is neither empty nor a mapping raises
    [TypeError]; in both cases nothing has been printed, requested or
    written. *)
Theorem missing_sources_raises
    (config : string) (dry_run : bool) (w : World)
    (m : list (string * yaml)) (block : yaml) :
  config_files w config = Some (YMap m) ->
  lookup "interlinks" m = Some block ->
  (forall il, block = YMap il -> lookup "sources" il = None ->
     interlinks config dry_run w = Raise (KeyError "sources") w)
  /\ (block <> YNull -> (forall il, block <> YMap il) ->
      interlinks config dry_run w = Raise TypeError w).
Proof.
  intros Hc Hi. split.
  - intros il Hb Hs. subst block.
    unfold interlinks, bind, load_config. rewrite Hc.
    cbn [py_get]. unfold ret. rewrite Hi. cbn [py_index]. rewrite Hs.
    reflexivity.
  - intros Hn Hm. unfold interlinks, bind, load_config. rewrite Hc.
    cbn [py_get]. unfold ret. rewrite Hi.
    destruct block as [ | b | z | s | l | il]; try reflexivity.
    + destruct (Hn eq_refl).
    + destruct (Hm il eq_refl).
Qed.

Lemma missing_sources_raises_witness :
  interlinks "nosources.yml" false MoreSamples.edge_world
  = Raise (KeyError "sources") MoreSamples.edge_world.
Proof.
  apply (proj1 (missing_sources_raises "nosources.yml" false
                  MoreSamples.edge_world MoreSamples.no_sources_config
                  (YMap [("fast", YBool true)]) eq_refl eq_refl)
           [("fast", YBool true)]); reflexivity.
Defined.

(** X14: a source entry without [url] ends the command with [KeyError]
    for that key, once the sources before it are processed; nothing is
    requested for it or for the sources after it. *)
Theorem missing_url_raises
    (config : string) (dry_run : bool) (w w1 : World)
    (m il l1 l2 e : list (string * yaml)) (k : string) :
  config_files w config = Some (YMap m) ->
  lookup "interlinks" m = Some (YMap il) ->
  lookup "sources" il = Some (YMap (l1 ++ (k, YMap e) :: l2)) ->
  for_each l1 (interlinks_source (parent (of_string config)) (cache_of m)) w
  = Ok tt w1 ->
  lookup "url" e = None ->
  interlinks config dry_run w = Raise (KeyError "url") w1.
Proof.
  intros Hc Hi Hs Hl1 Hu.
  rewrite (interlinks_unfold _ _ _ _ _ _ Hc Hi Hs).
  rewrite for_each_app, Hl1. cbn [for_each]. unfold bind at 1.
  unfold interlinks_source, bind. cbn [py_index]. rewrite Hu. reflexivity.
Qed.

Lemma missing_url_raises_witness :
  interlinks "nourl.yml" false MoreSamples.edge_world
  = Raise (KeyError "url")
      (log (Convert Samples.inv_a (mkPath "" ["_inv"; "A_objects.json"]))
         (log (Mkdir (mkPath "" ["_inv"]))
            (log (Fetch "https://a.example/objects.inv")
               MoreSamples.edge_world))).
Proof.
  apply (missing_url_raises "nourl.yml" false MoreSamples.edge_world _
           MoreSamples.no_url_config
           [("sources",
             YMap [("A", YMap [("url", YStr "https://a.example/")]);
                   ("B", YMap [("inv", YStr "objects.inv")])])]
           [("A", YMap [("url", YStr "https://a.example/")])] []
           [("inv", YStr "objects.inv")] "B");
    reflexivity.
Defined.

(** The local root has no URL to request. *)
Lemma sentinel_no_url (v : yaml) : is_sentinel v = true -> source_url v = None.
Proof.
  unfold is_sentinel, source_url.
  destruct v as [ | | | | | e]; try discriminate.
  destruct (lookup "url" e) as [[ | | | b | | ] | ]; cbn; try discriminate.
  intros H. rewrite H. reflexivity.
Qed.

(** An entry that is not the local root and has no URL to request makes
    the round raise at once. *)
Lemma interlinks_source_refused
    (p_root : Path) (cache : yaml) (k : string) (v : yaml) (w : World) :
  is_sentinel v = false -> source_url v = None ->
  exists e, interlinks_source p_root cache (k, v) w = Raise e w.
Proof.
  unfold is_sentinel, source_url, interlinks_source, py_index, py_get, bind,
    ret.
  destruct v as [ | | | | | e]; try (intros _ _; eexists; reflexivity).
  destruct (lookup "url" e) as [u0 | ];
    [ | intros _ _; eexists; reflexivity].
  destruct u0 as [ | b0 | z0 | b | l0 | m0]; cbn [py_eq_str];
    try (intros _ _;
         destruct (lookup "inv" e) as [[ | [ | ] | | | | ] | ];
         try destruct b0; cbn; eexists; reflexivity).
  intros Hs. rewrite Hs.
  destruct (lookup "inv" e) as [[ | [ | ] | | | | ] | ]; try discriminate;
    intros _; cbn; eexists; reflexivity.
Qed.

(** A round with a URL to request and a string for the cache directory. *)
Lemma interlinks_source_fetches
    (p_root : Path) (c k : string) (v : yaml) (u : string) (w : World) :
  source_url v = Some u ->
  interlinks_source p_root (YStr c) (k, v) w
  = match network w u with
    | Some inv =>
        Ok tt (log (Convert inv (cache_path p_root c k))
                 (log (Mkdir (parent (cache_path p_root c k)))
                    (log (Fetch u) w)))
    | None => Raise (InventoryError u) (log (Fetch u) w)
    end.
Proof.
  intros Hu. rewrite (interlinks_source_request _ _ _ _ _ _ Hu).
  unfold bind. cbn [soi_Inventory].
  destruct (network w u) as [inv | ]; reflexivity.
Qed.

Section Effects.

Variables (p_root : Path) (c : string).

Let step := interlinks_source p_root (YStr c).
Let effects := source_effects p_root c.

(** What a round does to the world, and when it returns. *)
Lemma step_effects (k : string) (v : yaml) (w : World) :
  trace (world_of (step (k, v) w)) = (trace w ++ effects w (k, v))%list
  /\ network (world_of (step (k, v) w)) = network w
  /\ (forall w', step (k, v) w = Ok tt w' ->
      is_sentinel v = true
      \/ exists u inv, source_url v = Some u /\ network w u = Some inv)
  /\ (forall e w', step (k, v) w = Raise e w' ->
      is_sentinel v = false
      /\ forall inv p, ~ In (Convert inv p) (effects w (k, v))).
Proof.
  unfold step, effects, source_effects. cbn [fst snd].
  destruct (source_url v) as [u | ] eqn:Hu.
  - rewrite (interlinks_source_fetches _ _ _ _ _ _ Hu).
    assert (Hs : is_sentinel v = false).
    { destruct (is_sentinel v) eqn:Hs; [ | reflexivity].
      rewrite (sentinel_no_url _ Hs) in Hu. discriminate Hu. }
    destruct (network w u) as [inv | ] eqn:Hn; cbn [world_of log trace network].
    + rewrite <- !app_assoc. cbn [app].
      split; [reflexivity | split; [reflexivity | split]].
      * intros w' _. right. exists u, inv. split; [reflexivity | exact Hn].
      * intros e w' Hr. discriminate Hr.
    + split; [reflexivity | split; [reflexivity | split]].
      * intros w' Hr. discriminate Hr.
      * intros e w' _. split; [exact Hs | ].
        intros inv p [Hin | []]. discriminate Hin.
  - destruct (is_sentinel v) eqn:Hs.
    + rewrite (interlinks_source_sentinel _ _ _ _ _ Hs). cbn [world_of].
      rewrite app_nil_r.
      split; [reflexivity | split; [reflexivity | split]].
      * intros w' _. left. reflexivity.
      * intros e w' Hr. discriminate Hr.
    + destruct (interlinks_source_refused p_root (YStr c) k v w Hs Hu)
        as [e He].
      rewrite He. cbn [world_of]. rewrite app_nil_r.
      split; [reflexivity | split; [reflexivity | split]].
      * intros w' Hr. discriminate Hr.
      * intros e' w' _. split; [reflexivity | ]. intros inv p [].
Qed.

Lemma effects_same_network (w w1 : World) (kv : string * yaml) :
  network w1 = network w -> effects w1 kv = effects w kv.
Proof.
  intros H. unfold effects, source_effects. rewrite H. reflexivity.
Qed.

(** A loop that returns has done the effects of every source, in the
    order of the mapping. *)
Lemma loop_returns (srcs : list (string * yaml)) (w w' : World) :
  for_each srcs step w = Ok tt w' ->
  trace w' = (trace w ++ flat_map (effects w) srcs)%list
  /\ Forall (fun kv => is_sentinel (snd kv) = true
                       \/ exists u inv, source_url (snd kv) = Some u
                                        /\ network w u = Some inv) srcs.
Proof.
  revert w. induction srcs as [ | [k v] srcs IH]; intros w H.
  - cbn in H. inversion H. cbn. rewrite app_nil_r. split; constructor.
  - cbn [for_each] in H. unfold bind in H.
    destruct (step_effects k v w) as (Ht & Hn & Hok & _).
    destruct (step (k, v) w) as [[] w1 | e w1] eqn:Hstep; [ | discriminate H].
    cbn [world_of] in Ht, Hn.
    destruct (IH w1 H) as [IHt IHf]. split.
    + rewrite IHt, Ht. cbn [flat_map]. rewrite <- app_assoc.
      f_equal. f_equal. apply flat_map_ext. intros kv.
      apply effects_same_network. exact Hn.
    + constructor.
      * exact (Hok w1 eq_refl).
      * rewrite Hn in IHf. exact IHf.
Qed.


End Effects.

(** X15: when the command returns, the effects it has added are, source
    by source in the order of the mapping, the request of [url] followed by
    [inv] (by [objects.inv] without it), the creation of the directory of
    the cache file and the conversion into the cache file; the local root
    adds nothing, and every other source had an inventory to fetch. *)
Theorem successful_run_effects
    (config : string) (dry_run : bool) (w w' : World)
    (m il srcs : list (string * yaml)) (c : string) :
  config_files w config = Some (YMap m) ->
  lookup "interlinks" m = Some (YMap il) ->
  lookup "sources" il = Some (YMap srcs) ->
  cache_of m = YStr c ->
  interlinks config dry_run w = Ok tt w' ->
  trace w'
  = (trace w
     ++ flat_map (source_effects (parent (of_string config)) c w) srcs)%list
  /\ Forall (fun kv => is_sentinel (snd kv) = true
                       \/ exists u inv, source_url (snd kv) = Some u
                                        /\ network w u = Some inv) srcs.
Proof.
  intros Hc Hi Hs Hcache H.
  rewrite (interlinks_unfold _ _ _ _ _ _ Hc Hi Hs), Hcache in H.
  apply (loop_returns _ _ _ _ _ H).
Qed.

Lemma successful_run_effects_witness :
  trace (log (Convert Samples.inv_a (mkPath "" ["_inv"; "A_objects.json"]))
           (log (Mkdir (mkPath "" ["_inv"]))
              (log (Fetch "https://a.example/objects.inv")
                 Samples.docs_world)))
  = (trace Samples.docs_world
     ++ flat_map (source_effects (parent (of_string "_quarto.yml")) "_inv"
                    Samples.docs_world) Samples.cached_sources)%list.
Proof.
  apply (proj1 (successful_run_effects "_quarto.yml" false Samples.docs_world
                  _ Samples.cached_config _ Samples.cached_sources "_inv"
                  eq_refl eq_refl eq_refl eq_refl eq_refl)).
Defined.



(** X17: a [cache] value that is not a string is found out only after the
    inventory of the first source to process has been requested: the round
    raises [TypeError] with the request made and nothing written. *)
Theorem cache_not_a_string
    (p_root : Path) (cache : yaml) (k : string) (v : yaml)
    (u : string) (inv : Inventory) (w : World) :
  (forall c, cache <> YStr c) ->
  source_url v = Some u ->
  network w u = Some inv ->
  interlinks_source p_root cache (k, v) w = Raise TypeError (log (Fetch u) w).
Proof.
  intros Hcache Hu Hn. rewrite (interlinks_source_request _ _ _ _ _ _ Hu).
  unfold bind. cbn [soi_Inventory]. rewrite Hn.
  destruct cache as [ | b | z | s | l | m0]; try reflexivity.
  destruct (Hcache s eq_refl).
Qed.

Lemma cache_not_a_string_witness :
  interlinks_source (mkPath "" []) (YInt 5)
    ("A", YMap [("url", YStr "https://a.example/")]) MoreSamples.edge_world
  = Raise TypeError
      (log (Fetch "https://a.example/objects.inv") MoreSamples.edge_world).
Proof.
  apply (cache_not_a_string _ _ _ _ _ Samples.inv_a);
    [discriminate | reflexivity | reflexivity].
Defined.

End InterlinksMore.

(** ** Where the cache files go *)

Module CachePaths.

Import InterlinksFacts.








Lemma anchor_of_anchored (s : string) :
  String.eqb (anchor_of (String slash s)) "" = false.
Proof.
  unfold anchor_of. cbn [leading_slashes]. rewrite Ascii.eqb_refl.
  destruct (leading_slashes s) as [ | [ | n]]; reflexivity.
Qed.

Lemma joinpath_anchored (p : Path) (s : string) :
  joinpath p (String slash s) = of_string (String slash s).
Proof.
  unfold joinpath. cbn [anchor of_string]. rewrite anchor_of_anchored.
  reflexivity.
Qed.





(** X20: with a [cache] value that begins with ["/"] the directory of the
    configuration file plays no part: a round does the same from every
    such directory. *)
Theorem absolute_cache_ignores_config_directory
    (p1 p2 : Path) (c : string) (kv : string * yaml) (w : World) :
  interlinks_source p1 (YStr (String slash c)) kv w
  = interlinks_source p2 (YStr (String slash c)) kv w.
Proof.
  destruct kv as [k v]. unfold interlinks_source, bind.
  destruct (py_index v "url" w) as [url0 w0 | e w0]; [ | reflexivity].
  destruct (py_eq_str url0 "/"); [reflexivity | ].
  destruct (py_index v "url" w0) as [base w1 | e w1]; [ | reflexivity].
  destruct (py_get v "inv" (YStr "objects.inv") w1) as [iv w2 | e w2];
    [ | reflexivity].
  destruct (py_add base iv w2) as [url w3 | e w3]; [ | reflexivity].
  destruct (soi_Inventory url w3) as [inv w4 | e w4]; [ | reflexivity].
  cbn [path_div]. unfold ret. rewrite !joinpath_anchored. reflexivity.
Qed.

End CachePaths.
